(** * ocs-deploy: the declared infrastructure of the three stacks

    A shallow embedding of [ocs_deploy/ecr.py], [ocs_deploy/fargate.py] and
    [ocs_deploy/waf.py].  The three files build CDK constructs inside a
    stack; what they compute is the tree of constructs and the property bag
    of each one.  The embedding keeps that shape:

    - every construct class used by the sources is a record of the keyword
      arguments the sources pass (module names follow the Python import
      aliases: [ecr], [ecs], [iam], [wafv2], ...);
    - creating a construct inside a scope is an effect on the stack's
      construct tree: the id must be new in its scope, otherwise the
      constructor raises.  The stack methods are written in a state and
      error monad [cdk.Synth] over that tree;
    - objects that the sources mutate after creation (a repository receiving
      lifecycle rules, a task definition receiving containers, a container
      receiving dependencies) are updated in the object that owns them, and
      referred to by their node path.

    Children that the library creates under its own constructs are left out
    of the tree, with one exception the firewall stack depends on: the
    resource policy of a log group.  Validation done by the library or by the
    platform on values (name syntax, quotas) is outside the model. *)

From Stdlib Require Import Ascii NArith Lia.
From Stdlib Require String.
From stdpp Require Import base option list gmap strings pretty.

(** ** Python built-ins used by the sources *)

Module py.

(** [str.upper] on ASCII text; bytes outside [a-z] are kept. *)
Definition upper_ascii (c : ascii) : ascii :=
  let n := nat_of_ascii c in
  if (97 <=? n)%nat && (n <=? 122)%nat then ascii_of_nat (n - 32) else c.

Fixpoint upper (s : string) : string :=
  match s with
  | EmptyString => EmptyString
  | String c s' => String (upper_ascii c) (upper s')
  end.

(** [str.replace(old, new)] for a non-empty [old]: every occurrence, left
    to right, without overlap.  [skip] counts the characters of a matched
    occurrence that are still to be dropped. *)
Fixpoint replace_from (old new : string) (skip : nat) (s : string) : string :=
  match s with
  | EmptyString => EmptyString
  | String c s' =>
      match skip with
      | S k => replace_from old new k s'
      | O =>
          if String.prefix old s
          then new +:+ replace_from old new (String.length old - 1) s'
          else String c (replace_from old new 0 s')
      end
  end.

Definition replace (old new s : string) : string := replace_from old new 0 s.

(** [str(n)] for a non-negative integer. *)
Definition str (n : N) : string := pretty n.

(** A dict display [{k1: v1, k2: v2, ...}]: the pairs are stored from left
    to right, a later pair replacing an earlier one with the same key. *)
Definition dict {V} (items : list (string * V)) : gmap string V :=
  foldl (λ d kv, <[kv.1 := kv.2]> d) ∅ items.

End py.

(** ** aws_cdk core: construct tree, dependencies, outputs *)

Module cdk.

(** A construct is addressed by the ids from its stack down to itself; the
    stack ([self] in the sources) is the empty path. *)
Definition Path := list string.

Definition self : Path := [].

(** The attribute of a construct that is only known at deployment
    ([repo.repository_arn], [log_group.log_group_arn], ...).  At synthesis
    the sources hold a placeholder string for it. *)
Definition Token (node : Path) (attr : string) : string :=
  "${Token[" +:+ String.concat "/" node +:+ "." +:+ attr +:+ "]}".

Inductive Duration :=
| Duration_seconds (amount : N)
| Duration_days (amount : N).

Definition to_seconds (d : Duration) : N :=
  match d with
  | Duration_seconds n => n
  | Duration_days n => (n * 86400)%N
  end.

Inductive RemovalPolicy := DESTROY | RETAIN | SNAPSHOT.

Module Environment.
Record t := Build { account : option string; region : option string }.
End Environment.

Module CfnOutput.
Record t := Build {
  node : Path;
  value : string;
  description : option string;
}.
End CfnOutput.

(** The state of the stack under construction. *)
Module Stack.
Record t := Build {
  children : list Path;              (* constructs, in creation order *)
  dependencies : list (Path * Path); (* [a.node.add_dependency(b)] as (a, b) *)
  outputs : list CfnOutput.t;
}.
Definition empty : t := Build [] [] [].
End Stack.

Inductive Error :=
| DuplicateConstruct (scope : Path) (id : string).

Definition Synth (A : Type) : Type := Stack.t → Error + (A * Stack.t).

Definition ret {A} (a : A) : Synth A := λ st, inr (a, st).

Definition bind {A B} (c : Synth A) (k : A → Synth B) : Synth B :=
  λ st, match c st with
        | inl e => inl e
        | inr (a, st') => k a st'
        end.

(** [Construct.__init__(scope, id)]: "There is already a Construct with
    name ..." when the id is taken in that scope. *)
Definition Construct (scope : Path) (id : string) : Synth Path :=
  λ st,
    let node := scope ++ [id] in
    if decide (node ∈ Stack.children st)
    then inl (DuplicateConstruct scope id)
    else inr (node, Stack.Build (Stack.children st ++ [node])
                                (Stack.dependencies st)
                                (Stack.outputs st)).

(** [a.node.add_dependency(b)] *)
Definition add_dependency (a b : Path) : Synth unit :=
  λ st, inr (tt, Stack.Build (Stack.children st)
                             (Stack.dependencies st ++ [(a, b)])
                             (Stack.outputs st)).

Definition CfnOutput_ (scope : Path) (id : string) (value : string)
    (description : option string) : Synth CfnOutput.t :=
  bind (Construct scope id) (λ node,
    λ st,
      let out := CfnOutput.Build node value description in
      inr (out, Stack.Build (Stack.children st)
                            (Stack.dependencies st)
                            (Stack.outputs st ++ [out]))).

(** A [for] loop whose body updates one local variable. *)
Fixpoint for_in {A S} (l : list A) (body : A → S → Synth S) (acc : S)
    : Synth S :=
  match l with
  | [] => ret acc
  | x :: l' => bind (body x acc) (for_in l' body)
  end.

(** What a dependency means in the synthesized template: a construct that
    depends on [b] depends on every construct at or below [b], whenever
    it was created. *)
Definition depends_on (st : Stack.t) (a : Path) : list Path :=
  filter (λ q, Exists (λ d, d.1 = a ∧ d.2 `prefix_of` q) (Stack.dependencies st))
         (Stack.children st).

End cdk.

Notation "x <- c ;; k" := (cdk.bind c (λ x, k))
  (at level 100, c at next level, right associativity).

(** ** ocs_deploy.config (not part of the sources at hand)

    [OCSConfig] is taken as a record of the attributes and methods the three
    stacks read; every theorem below holds for an arbitrary value of it. *)

Module OCSConfig.

Module Secret.
Record t := Build { name : string; managed : bool }.
End Secret.

Record t := Build {
  ECR_STACK : string;
  DJANGO_STACK : string;
  stack_name : string → string;
  (* [make_name()] is [make_name None], [make_name("X")] is [make_name (Some "X")] *)
  make_name : option string → string;
  env : cdk.Environment.t;
  cdk_env : cdk.Environment.t;
  ecr_repo_name : string;
  region : string;
  azure_region : string;
  rds_db_name : string;
  s3_private_bucket_name : string;
  s3_public_bucket_name : string;
  s3_whatsapp_audio_bucket : string;
  privacy_policy_url : string;
  terms_url : string;
  signup_enabled : string;
  slack_bot_name : string;
  taskbadger_org : string;
  taskbadger_project : string;
  django_secret_key_secrets_name : string;
  get_secrets_list : list Secret.t;
}.

End OCSConfig.

(** ** aws_ecr *)

Module ecr.

Inductive TagStatus := ANY | TAGGED | UNTAGGED.

(** The keyword arguments of [add_lifecycle_rule] that [ecr.py] passes. *)
Module LifecycleRule.
Record t := Build {
  max_image_age : option cdk.Duration;
  max_image_count : option N;
  rule_priority : option N;
  tag_status : option TagStatus;
}.
End LifecycleRule.

Module Repository.
Record t := Build {
  node : cdk.Path;
  repository_name : string;
  removal_policy : cdk.RemovalPolicy;
  lifecycle_rules : list LifecycleRule.t;
}.

Definition repository_arn (r : t) : string := cdk.Token (node r) "Arn".
Definition repository_uri (r : t) : string := cdk.Token (node r) "RepositoryUri".

(** [repo.add_lifecycle_rule(...)]: the rule joins the repository's list. *)
Definition add_lifecycle_rule (r : t) (rule : LifecycleRule.t) : t :=
  Build (node r) (repository_name r) (removal_policy r)
        (lifecycle_rules r ++ [rule]).
End Repository.

Definition Repository_ (scope : cdk.Path) (id : string)
    (repository_name : string) (removal_policy : cdk.RemovalPolicy)
    : cdk.Synth Repository.t :=
  node <- cdk.Construct scope id ;;
  cdk.ret (Repository.Build node repository_name removal_policy []).

End ecr.

(** ** ocs_deploy/ecr.py *)

Module EcrStack.

Record t := Build {
  stack_id : string;
  env : cdk.Environment.t;
  repo : ecr.Repository.t;
  tree : cdk.Stack.t;
}.

Definition setup_ecr (config : OCSConfig.t) : cdk.Synth ecr.Repository.t :=
  ecr_repo <- ecr.Repository_ cdk.self
                (OCSConfig.make_name config (Some "ECR"))
                (OCSConfig.ecr_repo_name config)
                cdk.DESTROY ;;
  let ecr_repo := ecr.Repository.add_lifecycle_rule ecr_repo
        {| ecr.LifecycleRule.max_image_age := Some (cdk.Duration_days 7);
           ecr.LifecycleRule.max_image_count := None;
           ecr.LifecycleRule.rule_priority := Some 1%N;
           ecr.LifecycleRule.tag_status := Some ecr.UNTAGGED |} in
  let ecr_repo := ecr.Repository.add_lifecycle_rule ecr_repo
        {| ecr.LifecycleRule.max_image_age := None;
           ecr.LifecycleRule.max_image_count := Some 4%N;
           ecr.LifecycleRule.rule_priority := Some 2%N;
           ecr.LifecycleRule.tag_status := Some ecr.ANY |} in
  _ <- cdk.CfnOutput_ cdk.self
         (OCSConfig.make_name config (Some "ECRRepositoryArn"))
         (ecr.Repository.repository_arn ecr_repo) None ;;
  _ <- cdk.CfnOutput_ cdk.self
         (OCSConfig.make_name config (Some "ECRRepositoryUri"))
         (ecr.Repository.repository_uri ecr_repo) None ;;
  cdk.ret ecr_repo.

Definition __init__ (config : OCSConfig.t) : cdk.Error + t :=
  match setup_ecr config cdk.Stack.empty with
  | inl e => inl e
  | inr (repo, tree) =>
      inr (Build (OCSConfig.stack_name config (OCSConfig.ECR_STACK config))
                 (OCSConfig.cdk_env config) repo tree)
  end.

End EcrStack.


(** ** aws_iam *)

Module iam.

Inductive Effect := ALLOW | DENY.

Inductive Principal :=
| ServicePrincipal (service : string).

Inductive ManagedPolicy :=
| from_aws_managed_policy_name (managed_policy_name : string).

Module PolicyStatement.
Record t := Build {
  effect : Effect;             (* ALLOW when the argument is not given *)
  actions : list string;
  principals : list Principal;
  resources : list string;
}.
End PolicyStatement.

Module Role.
Record t := Build {
  node : cdk.Path;
  assumed_by : Principal;
  managed_policies : list ManagedPolicy;
  policy_statements : list PolicyStatement.t;
}.

Definition add_managed_policy (r : t) (p : ManagedPolicy) : t :=
  Build (node r) (assumed_by r) (managed_policies r ++ [p]) (policy_statements r).

Definition add_to_policy (r : t) (s : PolicyStatement.t) : t :=
  Build (node r) (assumed_by r) (managed_policies r) (policy_statements r ++ [s]).
End Role.

Definition Role_ (scope : cdk.Path) (id : string) (assumed_by : Principal)
    : cdk.Synth Role.t :=
  node <- cdk.Construct scope id ;;
  cdk.ret (Role.Build node assumed_by [] []).

End iam.

(** ** aws_secretsmanager *)

Module secretsmanager.

Module SecretStringGenerator.
Record t := Build { password_length : option N }.
End SecretStringGenerator.

Inductive ISecret :=
(* [secretsmanager.Secret(scope, id, secret_name=..., generate_secret_string=...)] *)
| Secret (node : cdk.Path) (secret_name : string)
         (generate_secret_string : option SecretStringGenerator.t)
(* [secretsmanager.Secret.from_secret_name_v2(scope, id, secret_name)] *)
| SecretByName (node : cdk.Path) (secret_name : string).

Definition Secret_ (scope : cdk.Path) (id : string) (secret_name : string)
    (generate_secret_string : option SecretStringGenerator.t)
    : cdk.Synth ISecret :=
  node <- cdk.Construct scope id ;;
  cdk.ret (Secret node secret_name generate_secret_string).

Definition from_secret_name_v2 (scope : cdk.Path) (id : string)
    (secret_name : string) : cdk.Synth ISecret :=
  node <- cdk.Construct scope id ;;
  cdk.ret (SecretByName node secret_name).

End secretsmanager.

(** ** aws_ec2 and aws_elasticloadbalancingv2 *)

Module ec2.

(** The network context comes from another stack; only its identity matters. *)
Definition IVpc := string.

Inductive Peer := any_ipv4.
Inductive Port := tcp (port : N).

Module SecurityGroup.
Record t := Build {
  node : cdk.Path;
  vpc : IVpc;
  allow_all_outbound : bool;
  ingress_rules : list (Peer * Port);
}.

Definition add_ingress_rule (sg : t) (peer : Peer) (connection : Port) : t :=
  Build (node sg) (vpc sg) (allow_all_outbound sg)
        (ingress_rules sg ++ [(peer, connection)]).
End SecurityGroup.

Definition SecurityGroup_ (scope : cdk.Path) (id : string) (vpc : IVpc)
    (allow_all_outbound : bool) : cdk.Synth SecurityGroup.t :=
  node <- cdk.Construct scope id ;;
  cdk.ret (SecurityGroup.Build node vpc allow_all_outbound []).

End ec2.

Module elb.
Inductive ApplicationProtocol := HTTP | HTTPS.
End elb.

(** ** aws_ecs *)

Module ecs.

Module Cluster.
Record t := Build {
  node : cdk.Path;
  vpc : ec2.IVpc;
  container_insights : bool;
  cluster_name : string;
}.
End Cluster.

Definition Cluster_ (scope : cdk.Path) (id : string) (vpc : ec2.IVpc)
    (container_insights : bool) (cluster_name : string) : cdk.Synth Cluster.t :=
  node <- cdk.Construct scope id ;;
  cdk.ret (Cluster.Build node vpc container_insights cluster_name).

Module AwsLogDriver.
Record t := Build { stream_prefix : string }.
End AwsLogDriver.

(** [ecs.Secret.from_secrets_manager(secret, field=None)] *)
Module Secret.
Record t := from_secrets_manager {
  secret : secretsmanager.ISecret;
  field : option string;
}.
End Secret.

(** [ecs.ContainerImage.from_ecr_repository(repository, tag=...)] *)
Module ContainerImage.
Record t := from_ecr_repository {
  repository : ecr.Repository.t;
  tag : string;
}.
End ContainerImage.

Module PortMapping.
Record t := Build { container_port : N }.
End PortMapping.

Inductive ContainerDependencyCondition := START | COMPLETE | SUCCESS | HEALTHY.

(** A dependency names the container it waits for by that container's
    node, which is what identifies the object inside its task definition. *)
Module ContainerDependency.
Record t := Build {
  container : cdk.Path;
  condition : option ContainerDependencyCondition;
}.
End ContainerDependency.

(** The keyword arguments of [add_container]; an argument that a call leaves
    out, or passes as [None], is [None]. *)
Module ContainerDefinitionOptions.
Record t := Build {
  image : ContainerImage.t;
  container_name : option string;
  command : option (list string);
  health_check : option unit;
  essential : option bool;
  port_mappings : option (list PortMapping.t);
  environment : option (gmap string string);
  secrets : option (gmap string Secret.t);
  logging : option AwsLogDriver.t;
}.
End ContainerDefinitionOptions.

Module ContainerDefinition.
Record t := Build {
  node : cdk.Path;
  props : ContainerDefinitionOptions.t;
  container_dependencies : list ContainerDependency.t;
}.
End ContainerDefinition.

Module FargateTaskDefinition.
Record t := Build {
  node : cdk.Path;
  cpu : N;
  memory_limit_mib : N;
  execution_role : iam.Role.t;
  task_role : iam.Role.t;
  containers : list ContainerDefinition.t;
}.

(** [task.add_container(id=..., image=..., ...)]: the container is created in the
    scope of the task definition and joins its list of containers.  The
    result is the handle of the new container and the updated task. *)
Definition add_container (task : t) (id : string)
    (props : ContainerDefinitionOptions.t) : cdk.Synth (cdk.Path * t) :=
  cnode <- cdk.Construct (node task) id ;;
  cdk.ret (cnode,
           Build (node task) (cpu task) (memory_limit_mib task)
                 (execution_role task) (task_role task)
                 (containers task ++ [ContainerDefinition.Build cnode props []])).

(** [container.add_container_dependencies(dep, ...)] on a container of [task]:
    the container object is the one the task definition holds, so the task
    definition sees the new dependencies. *)
Definition add_container_dependencies (task : t) (container : cdk.Path)
    (deps : list ContainerDependency.t) : t :=
  Build (node task) (cpu task) (memory_limit_mib task)
        (execution_role task) (task_role task)
        ((λ c, if decide (ContainerDefinition.node c = container)
               then ContainerDefinition.Build
                      (ContainerDefinition.node c) (ContainerDefinition.props c)
                      (ContainerDefinition.container_dependencies c ++ deps)
               else c) <$> containers task).
End FargateTaskDefinition.

Definition FargateTaskDefinition_ (scope : cdk.Path) (id : string)
    (cpu memory_limit_mib : N) (execution_role task_role : iam.Role.t)
    : cdk.Synth FargateTaskDefinition.t :=
  node <- cdk.Construct scope id ;;
  cdk.ret (FargateTaskDefinition.Build node cpu memory_limit_mib
                                       execution_role task_role []).

(** [scaling.scale_on_cpu_utilization(id, ...)] *)
Module CpuUtilizationScaling.
Record t := Build {
  id : string;
  target_utilization_percent : N;
  scale_in_cooldown : option cdk.Duration;
  scale_out_cooldown : option cdk.Duration;
}.
End CpuUtilizationScaling.

(** The object returned by [service.auto_scale_task_count(...)]. *)
Module ScalableTaskCount.
Record t := Build {
  max_capacity : N;
  min_capacity : option N;
  policies : list CpuUtilizationScaling.t;
}.
End ScalableTaskCount.

Module FargateService.
Record t := Build {
  service_name : string;
  desired_count : N;
  task_definition : FargateTaskDefinition.t;
  scalable_target : option ScalableTaskCount.t;
}.

Definition auto_scale_task_count (svc : t) (max_capacity : N)
    (min_capacity : option N) : t :=
  Build (service_name svc) (desired_count svc) (task_definition svc)
        (Some (ScalableTaskCount.Build max_capacity min_capacity [])).

(** [scale_on_cpu_utilization] called on the scaling object of [svc]. *)
Definition scale_on_cpu_utilization (svc : t) (policy : CpuUtilizationScaling.t)
    : t :=
  Build (service_name svc) (desired_count svc) (task_definition svc)
        ((λ s, ScalableTaskCount.Build
                 (ScalableTaskCount.max_capacity s)
                 (ScalableTaskCount.min_capacity s)
                 (ScalableTaskCount.policies s ++ [policy]))
           <$> scalable_target svc).
End FargateService.

End ecs.

(** ** aws_ecs_patterns *)

Module ecs_patterns.

Module ApplicationLoadBalancedFargateService.
Record t := Build {
  node : cdk.Path;
  cluster : ecs.Cluster.t;
  security_groups : list ec2.SecurityGroup.t;
  cpu : N;
  memory_limit_mib : N;
  desired_count : N;
  public_load_balancer : bool;
  load_balancer_name : string;
  service_name : string;
  certificate : string;
  redirect_http : bool;
  protocol : elb.ApplicationProtocol;
  task_definition : ecs.FargateTaskDefinition.t;
  service : ecs.FargateService.t;
}.

Definition load_balancer_dns_name (s : t) : string :=
  cdk.Token (node s ++ ["LB"]) "DNSName".

(** Store back the service object after it was changed through
    [fargate_service.service]. *)
Definition with_service (s : t) (svc : ecs.FargateService.t) : t :=
  Build (node s) (cluster s) (security_groups s) (cpu s) (memory_limit_mib s)
        (desired_count s) (public_load_balancer s) (load_balancer_name s)
        (service_name s) (certificate s) (redirect_http s) (protocol s)
        (task_definition s) svc.
End ApplicationLoadBalancedFargateService.

(** The pattern creates the service it balances from its own arguments. *)
Definition ApplicationLoadBalancedFargateService_ (scope : cdk.Path) (id : string)
    (cluster : ecs.Cluster.t) (security_groups : list ec2.SecurityGroup.t)
    (cpu memory_limit_mib desired_count : N) (public_load_balancer : bool)
    (load_balancer_name service_name certificate : string)
    (redirect_http : bool) (protocol : elb.ApplicationProtocol)
    (task_definition : ecs.FargateTaskDefinition.t)
    : cdk.Synth ApplicationLoadBalancedFargateService.t :=
  node <- cdk.Construct scope id ;;
  cdk.ret (ApplicationLoadBalancedFargateService.Build
             node cluster security_groups cpu memory_limit_mib desired_count
             public_load_balancer load_balancer_name service_name certificate
             redirect_http protocol task_definition
             (ecs.FargateService.Build service_name desired_count
                                       task_definition None)).

End ecs_patterns.

(** ** ocs_deploy/fargate.py *)

(** The sibling stacks that the compute stack reads from.  They are defined
    elsewhere; each is the record of the attributes [fargate.py] uses. *)
Module RdsStack.
Module Endpoint.
Record t := Build { hostname : string }.
End Endpoint.
Module DatabaseInstance.
Record t := Build {
  secret : secretsmanager.ISecret;
  instance_endpoint : Endpoint.t;
  db_instance_endpoint_port : string;
}.
End DatabaseInstance.
Record t := Build { db_instance : DatabaseInstance.t }.
End RdsStack.

Module RedisStack.
Record t := Build { redis_url_secret : secretsmanager.ISecret }.
End RedisStack.

Module DomainStack.
Record t := Build { certificate : string }.
End DomainStack.

Module FargateStack.

Record t := Build {
  stack_id : string;
  env : cdk.Environment.t;
  fargate_service : ecs_patterns.ApplicationLoadBalancedFargateService.t;
  tree : cdk.Stack.t;
}.

Definition _get_execution_role : cdk.Synth iam.Role.t :=
  execution_role <- iam.Role_ cdk.self "ecsTaskExecutionRole"
                      (iam.ServicePrincipal "ecs-tasks.amazonaws.com") ;;
  let execution_role := iam.Role.add_managed_policy execution_role
        (iam.from_aws_managed_policy_name
           "service-role/AmazonECSTaskExecutionRolePolicy") in
  let execution_role := iam.Role.add_to_policy execution_role
        {| iam.PolicyStatement.effect := iam.ALLOW;
           iam.PolicyStatement.actions :=
             [ "ecr:GetAuthorizationToken";
               "ecr:BatchCheckLayerAvailability";
               "ecr:GetDownloadUrlForLayer";
               "ecr:BatchGetImage";
               "logs:CreateLogStream";
               "logs:PutLogEvents" ];
           iam.PolicyStatement.principals := [];
           iam.PolicyStatement.resources := ["*"] |} in
  cdk.ret execution_role.

(** The three adjacent f-strings of [resources] are one string literal for
    Python: the list has a single element. *)
Definition _get_task_role (config : OCSConfig.t) : cdk.Synth iam.Role.t :=
  task_role <- iam.Role_ cdk.self "ecsTaskRole"
                 (iam.ServicePrincipal "ecs-tasks.amazonaws.com") ;;
  let task_role := iam.Role.add_to_policy task_role
        {| iam.PolicyStatement.actions :=
             [ "s3:PutObject";
               "s3:GetObjectAcl";
               "s3:GetObject";
               "s3:ListBucket";
               "s3:DeleteObject";
               "s3:PutObjectAcl";
               "s3:GetBucketAcl" ];
           iam.PolicyStatement.effect := iam.ALLOW;
           iam.PolicyStatement.principals := [];
           iam.PolicyStatement.resources :=
             [ "arn:aws:s3:::" +:+ OCSConfig.s3_private_bucket_name config +:+ "/*"
               +:+ "arn:aws:s3:::" +:+ OCSConfig.s3_public_bucket_name config +:+ "/*"
               +:+ "arn:aws:s3:::" +:+ OCSConfig.s3_whatsapp_audio_bucket config +:+ "/*"
             ] |} in
  cdk.ret task_role.

(** The body of the loop over [config.get_secrets_list()]. *)
Definition add_unmanaged_secret (secret : OCSConfig.Secret.t)
    (secrets : gmap string ecs.Secret.t) : cdk.Synth (gmap string ecs.Secret.t) :=
  if OCSConfig.Secret.managed secret then
    cdk.ret secrets (* continue *)
  else
    by_name <- secretsmanager.from_secret_name_v2 cdk.self
                 (OCSConfig.Secret.name secret) (OCSConfig.Secret.name secret) ;;
    cdk.ret (<[py.upper (OCSConfig.Secret.name secret) :=
                 ecs.Secret.from_secrets_manager by_name None]> secrets).

Definition _get_task_definition (rds_stack : RdsStack.t)
    (redis_stack : RedisStack.t) (ecr_repo : ecr.Repository.t)
    (config : OCSConfig.t) : cdk.Synth ecs.FargateTaskDefinition.t :=
  task_role <- _get_task_role config ;;
  execution_role <- _get_execution_role ;;
  let log_driver := ecs.AwsLogDriver.Build (OCSConfig.make_name config None) in
  django_secret_key <- secretsmanager.Secret_ cdk.self
      (OCSConfig.django_secret_key_secrets_name config)
      (OCSConfig.django_secret_key_secrets_name config)
      (Some (secretsmanager.SecretStringGenerator.Build (Some 50%N))) ;;
  let container_port := 8000%N in
  let environment : gmap string string := py.dict
    [ ("ACCOUNT_EMAIL_VERIFICATION", "mandatory");
      ("AWS_PRIVATE_STORAGE_BUCKET_NAME", OCSConfig.s3_private_bucket_name config);
      ("AWS_PUBLIC_STORAGE_BUCKET_NAME", OCSConfig.s3_public_bucket_name config);
      ("AWS_S3_REGION", OCSConfig.region config);
      ("AZURE_REGION", OCSConfig.azure_region config);
      ("DJANGO_DATABASE_NAME", OCSConfig.rds_db_name config);
      ("DJANGO_DATABASE_HOST",
       RdsStack.Endpoint.hostname
         (RdsStack.DatabaseInstance.instance_endpoint (RdsStack.db_instance rds_stack)));
      ("DJANGO_DATABASE_PORT",
       RdsStack.DatabaseInstance.db_instance_endpoint_port (RdsStack.db_instance rds_stack));
      ("DJANGO_EMAIL_BACKEND", "anymail.backends.amazon_ses.EmailBackend");
      ("DJANGO_SECURE_SSL_REDIRECT", "false");
      ("DJANGO_SETTINGS_MODULE", "gpt_playground.settings_production");
      ("PORT", py.str container_port);
      ("PRIVACY_POLICY_URL", OCSConfig.privacy_policy_url config);
      ("TERMS_URL", OCSConfig.terms_url config);
      ("SIGNUP_ENABLED", OCSConfig.signup_enabled config);
      ("SLACK_BOT_NAME", OCSConfig.slack_bot_name config);
      ("USE_S3_STORAGE", "True");
      ("WHATSAPP_S3_AUDIO_BUCKET", OCSConfig.s3_whatsapp_audio_bucket config);
      ("TASKBADGER_ORG", OCSConfig.taskbadger_org config);
      ("TASKBADGER_PROJECT", OCSConfig.taskbadger_project config) ] in
  let secrets : gmap string ecs.Secret.t := py.dict
    [ ("DJANGO_DATABASE_USER",
       ecs.Secret.from_secrets_manager
         (RdsStack.DatabaseInstance.secret (RdsStack.db_instance rds_stack))
         (Some "username"));
      ("DJANGO_DATABASE_PASSWORD",
       ecs.Secret.from_secrets_manager
         (RdsStack.DatabaseInstance.secret (RdsStack.db_instance rds_stack))
         (Some "password"));
      ("REDIS_URL",
       ecs.Secret.from_secrets_manager (RedisStack.redis_url_secret redis_stack) None);
      ("SECRET_KEY", ecs.Secret.from_secrets_manager django_secret_key None) ] in
  secrets <- cdk.for_in (OCSConfig.get_secrets_list config)
               add_unmanaged_secret secrets ;;
  let image := ecs.ContainerImage.from_ecr_repository ecr_repo "latest" in
  django_task <- ecs.FargateTaskDefinition_ cdk.self
      (OCSConfig.make_name config (Some "DjangoMigrations"))
      256%N 512%N execution_role task_role ;;
  added <- ecs.FargateTaskDefinition.add_container django_task "django_container"
      {| ecs.ContainerDefinitionOptions.image := image;
         ecs.ContainerDefinitionOptions.container_name := Some "migrate";
         ecs.ContainerDefinitionOptions.command :=
           Some ["python"; "manage.py"; "migrate"];
         ecs.ContainerDefinitionOptions.health_check := None;
         ecs.ContainerDefinitionOptions.essential := Some false;
         ecs.ContainerDefinitionOptions.port_mappings := None;
         ecs.ContainerDefinitionOptions.environment := Some environment;
         ecs.ContainerDefinitionOptions.secrets := Some secrets;
         ecs.ContainerDefinitionOptions.logging := Some log_driver |} ;;
  let migration_container := added.1 in
  let django_task := added.2 in
  added <- ecs.FargateTaskDefinition.add_container django_task "web"
      {| ecs.ContainerDefinitionOptions.image := image;
         ecs.ContainerDefinitionOptions.container_name := Some "web";
         ecs.ContainerDefinitionOptions.command := None;
         ecs.ContainerDefinitionOptions.health_check := None;
         ecs.ContainerDefinitionOptions.essential := Some true;
         ecs.ContainerDefinitionOptions.port_mappings :=
           Some [ecs.PortMapping.Build container_port];
         ecs.ContainerDefinitionOptions.environment := Some environment;
         ecs.ContainerDefinitionOptions.secrets := Some secrets;
         ecs.ContainerDefinitionOptions.logging := Some log_driver |} ;;
  let webserver_container := added.1 in
  let django_task := added.2 in
  let django_task := ecs.FargateTaskDefinition.add_container_dependencies
        django_task webserver_container
        [ ecs.ContainerDependency.Build migration_container (Some ecs.SUCCESS) ] in
  cdk.ret django_task.

(** The keyword arguments of the service are evaluated before its
    constructor runs, so the task definition is built first. *)
Definition setup_fargate_service (vpc : ec2.IVpc) (ecr_repo : ecr.Repository.t)
    (rds_stack : RdsStack.t) (redis_stack : RedisStack.t)
    (domain_stack : DomainStack.t) (config : OCSConfig.t)
    : cdk.Synth ecs_patterns.ApplicationLoadBalancedFargateService.t :=
  http_sg <- ec2.SecurityGroup_ cdk.self
               (OCSConfig.make_name config (Some "HttpSG")) vpc true ;;
  let http_sg := ec2.SecurityGroup.add_ingress_rule http_sg ec2.any_ipv4 (ec2.tcp 80) in
  https_sg <- ec2.SecurityGroup_ cdk.self
                (OCSConfig.make_name config (Some "HttpsSG")) vpc true ;;
  let https_sg := ec2.SecurityGroup.add_ingress_rule https_sg ec2.any_ipv4 (ec2.tcp 443) in
  cluster <- ecs.Cluster_ cdk.self
               (OCSConfig.make_name config (Some "DeploymentCluster"))
               vpc true (OCSConfig.make_name config (Some "Cluster")) ;;
  task_definition <- _get_task_definition rds_stack redis_stack ecr_repo config ;;
  fargate_service <- ecs_patterns.ApplicationLoadBalancedFargateService_ cdk.self
      (OCSConfig.make_name config (Some "FargateService"))
      cluster
      [http_sg; https_sg]
      256%N
      512%N
      1%N
      true
      (OCSConfig.make_name config (Some "LoadBalancer"))
      (OCSConfig.make_name config (Some "Django"))
      (DomainStack.certificate domain_stack)
      true
      elb.HTTPS
      task_definition ;;
  (* [scaling] is the object that [fargate_service.service] keeps *)
  let service := ecs.FargateService.auto_scale_task_count
        (ecs_patterns.ApplicationLoadBalancedFargateService.service fargate_service)
        2%N (Some 1%N) in
  let service := ecs.FargateService.scale_on_cpu_utilization service
        {| ecs.CpuUtilizationScaling.id :=
             OCSConfig.make_name config (Some "CpuScaling");
           ecs.CpuUtilizationScaling.target_utilization_percent := 70%N;
           ecs.CpuUtilizationScaling.scale_in_cooldown :=
             Some (cdk.Duration_seconds 60);
           ecs.CpuUtilizationScaling.scale_out_cooldown :=
             Some (cdk.Duration_seconds 60) |} in
  let fargate_service :=
    ecs_patterns.ApplicationLoadBalancedFargateService.with_service
      fargate_service service in
  _ <- cdk.CfnOutput_ cdk.self
         (OCSConfig.make_name config (Some "FargateServiceLoadBalancerDNS"))
         (ecs_patterns.ApplicationLoadBalancedFargateService.load_balancer_dns_name
            fargate_service)
         None ;;
  cdk.ret fargate_service.

Definition __init__ (vpc : ec2.IVpc) (ecr_repo : ecr.Repository.t)
    (rds_stack : RdsStack.t) (redis_stack : RedisStack.t)
    (domain_stack : DomainStack.t) (config : OCSConfig.t) : cdk.Error + t :=
  match setup_fargate_service vpc ecr_repo rds_stack redis_stack domain_stack
          config cdk.Stack.empty with
  | inl e => inl e
  | inr (fargate_service, tree) =>
      inr (Build (OCSConfig.stack_name config (OCSConfig.DJANGO_STACK config))
                 (OCSConfig.env config) fargate_service tree)
  end.

End FargateStack.

(** ** aws_logs *)

Module logs.

Inductive RetentionDays :=
| ONE_DAY | ONE_WEEK | ONE_MONTH | SIX_MONTHS | ONE_YEAR | TWO_YEARS
| FIVE_YEARS | TEN_YEARS | INFINITE.

(** The number of days each member stands for; [INFINITE] never expires. *)
Definition retention_in_days (r : RetentionDays) : option N :=
  match r with
  | ONE_DAY => Some 1%N
  | ONE_WEEK => Some 7%N
  | ONE_MONTH => Some 30%N
  | SIX_MONTHS => Some 180%N
  | ONE_YEAR => Some 365%N
  | TWO_YEARS => Some 731%N
  | FIVE_YEARS => Some 1827%N
  | TEN_YEARS => Some 3653%N
  | INFINITE => None
  end.

(** The [AWS::Logs::ResourcePolicy] that a log group creates under itself. *)
Module ResourcePolicy.
Record t := Build {
  node : cdk.Path;
  statements : list iam.PolicyStatement.t;
}.
End ResourcePolicy.

Module LogGroup.
Record t := Build {
  node : cdk.Path;
  log_group_name : string;
  retention : RetentionDays;
  removal_policy : cdk.RemovalPolicy;
  policy : option ResourcePolicy.t;
}.

Definition log_group_arn (g : t) : string := cdk.Token (node g) "Arn".

(** [log_group.add_to_resource_policy(statement)]: the first call creates
    the policy as the child ["Policy"] of the log group, later calls add
    their statement to it. *)
Definition add_to_resource_policy (g : t) (statement : iam.PolicyStatement.t)
    : cdk.Synth t :=
  match policy g with
  | Some p =>
      cdk.ret (Build (node g) (log_group_name g) (retention g) (removal_policy g)
                     (Some (ResourcePolicy.Build
                              (ResourcePolicy.node p)
                              (ResourcePolicy.statements p ++ [statement]))))
  | None =>
      pnode <- cdk.Construct (node g) "Policy" ;;
      cdk.ret (Build (node g) (log_group_name g) (retention g) (removal_policy g)
                     (Some (ResourcePolicy.Build pnode [statement])))
  end.
End LogGroup.

Definition LogGroup_ (scope : cdk.Path) (id : string) (log_group_name : string)
    (retention : RetentionDays) (removal_policy : cdk.RemovalPolicy)
    : cdk.Synth LogGroup.t :=
  node <- cdk.Construct scope id ;;
  cdk.ret (LogGroup.Build node log_group_name retention removal_policy None).

End logs.

(** ** aws_wafv2

    The [Cfn*] classes are plain property bags.  A property given as [{}]
    is [Some tt]; a property that is not given is [None]. *)

Module wafv2.

Module CfnWebACL.

Module DefaultActionProperty.
Record t := Build { allow : option unit; block : option unit }.
End DefaultActionProperty.

Module VisibilityConfigProperty.
Record t := Build {
  cloud_watch_metrics_enabled : bool;
  metric_name : string;
  sampled_requests_enabled : bool;
}.
End VisibilityConfigProperty.

Module ManagedRuleGroupStatementProperty.
Record t := Build { vendor_name : string; name : string }.
End ManagedRuleGroupStatementProperty.

Module RateBasedStatementProperty.
Record t := Build { limit : N; aggregate_key_type : string }.
End RateBasedStatementProperty.

Module StatementProperty.
Record t := Build {
  managed_rule_group_statement : option ManagedRuleGroupStatementProperty.t;
  rate_based_statement : option RateBasedStatementProperty.t;
}.
End StatementProperty.

Module OverrideActionProperty.
Record t := Build { count : option unit; none : option unit }.
End OverrideActionProperty.

Module RuleActionProperty.
Record t := Build {
  allow : option unit;
  block : option unit;
  captcha : option unit;
  challenge : option unit;
  count : option unit;
}.
End RuleActionProperty.

Module RuleProperty.
Record t := Build {
  name : string;
  priority : N;
  statement : StatementProperty.t;
  override_action : option OverrideActionProperty.t;
  action : option RuleActionProperty.t;
  visibility_config : VisibilityConfigProperty.t;
}.
End RuleProperty.

Record t := Build {
  node : cdk.Path;
  name : string;
  scope : string;
  default_action : DefaultActionProperty.t;
  visibility_config : VisibilityConfigProperty.t;
  rules : list RuleProperty.t;
}.

Definition attr_arn (acl : t) : string := cdk.Token (node acl) "Arn".

End CfnWebACL.

Definition CfnWebACL_ (scope : cdk.Path) (id : string) (name acl_scope : string)
    (default_action : CfnWebACL.DefaultActionProperty.t)
    (visibility_config : CfnWebACL.VisibilityConfigProperty.t)
    (rules : list CfnWebACL.RuleProperty.t) : cdk.Synth CfnWebACL.t :=
  node <- cdk.Construct scope id ;;
  cdk.ret (CfnWebACL.Build node name acl_scope default_action visibility_config rules).

Module CfnWebACLAssociation.
Record t := Build {
  node : cdk.Path;
  web_acl_arn : string;
  resource_arn : string;
}.
End CfnWebACLAssociation.

Definition CfnWebACLAssociation_ (scope : cdk.Path) (id : string)
    (web_acl_arn resource_arn : string) : cdk.Synth CfnWebACLAssociation.t :=
  node <- cdk.Construct scope id ;;
  cdk.ret (CfnWebACLAssociation.Build node web_acl_arn resource_arn).

Module CfnLoggingConfiguration.
Record t := Build {
  node : cdk.Path;
  resource_arn : string;
  log_destination_configs : list string;
}.
End CfnLoggingConfiguration.

Definition CfnLoggingConfiguration_ (scope : cdk.Path) (id : string)
    (resource_arn : string) (log_destination_configs : list string)
    : cdk.Synth CfnLoggingConfiguration.t :=
  node <- cdk.Construct scope id ;;
  cdk.ret (CfnLoggingConfiguration.Build node resource_arn log_destination_configs).

End wafv2.

(** ** ocs_deploy/waf.py *)

Module WAFStack.

Record t := Build {
  stack_id : string;
  env : cdk.Environment.t;
  config : OCSConfig.t;
  web_acl : wafv2.CfnWebACL.t;
  association : wafv2.CfnWebACLAssociation.t;
  log_group : logs.LogGroup.t;
  logging_config : wafv2.CfnLoggingConfiguration.t;
  tree : cdk.Stack.t;
}.

(** The constructor body after [super().__init__]; it returns the
    constructs it has created. *)
Definition body (config : OCSConfig.t) (load_balancer_arn : string)
    : cdk.Synth (wafv2.CfnWebACL.t * wafv2.CfnWebACLAssociation.t *
                 logs.LogGroup.t * wafv2.CfnLoggingConfiguration.t) :=
  (* Define the Web ACL *)
  web_acl <- wafv2.CfnWebACL_ cdk.self "DjangoWebACL"
      (OCSConfig.make_name config (Some "DjangoWAF"))
      "REGIONAL"
      {| wafv2.CfnWebACL.DefaultActionProperty.allow := Some tt;
         wafv2.CfnWebACL.DefaultActionProperty.block := None |}
      {| wafv2.CfnWebACL.VisibilityConfigProperty.cloud_watch_metrics_enabled := true;
         wafv2.CfnWebACL.VisibilityConfigProperty.metric_name :=
           OCSConfig.make_name config (Some "DjangoWAFMetrics");
         wafv2.CfnWebACL.VisibilityConfigProperty.sampled_requests_enabled := true |}
      [ (* Rule 1: AWS Managed Common Rule Set (Count mode) *)
        {| wafv2.CfnWebACL.RuleProperty.name := "AWSManagedCommonRuleSet";
           wafv2.CfnWebACL.RuleProperty.priority := 0%N;
           wafv2.CfnWebACL.RuleProperty.statement :=
             {| wafv2.CfnWebACL.StatementProperty.managed_rule_group_statement :=
                  Some {| wafv2.CfnWebACL.ManagedRuleGroupStatementProperty.vendor_name := "AWS";
                          wafv2.CfnWebACL.ManagedRuleGroupStatementProperty.name :=
                            "AWSManagedRulesCommonRuleSet" |};
                wafv2.CfnWebACL.StatementProperty.rate_based_statement := None |};
           wafv2.CfnWebACL.RuleProperty.override_action :=
             Some {| wafv2.CfnWebACL.OverrideActionProperty.count := Some tt;
                     wafv2.CfnWebACL.OverrideActionProperty.none := None |};
           wafv2.CfnWebACL.RuleProperty.action := None;
           wafv2.CfnWebACL.RuleProperty.visibility_config :=
             {| wafv2.CfnWebACL.VisibilityConfigProperty.cloud_watch_metrics_enabled := true;
                wafv2.CfnWebACL.VisibilityConfigProperty.metric_name :=
                  OCSConfig.make_name config (Some "CommonRuleSetMetrics");
                wafv2.CfnWebACL.VisibilityConfigProperty.sampled_requests_enabled := true |} |};
        (* Rule 2: Rate Limiting (Count mode) *)
        {| wafv2.CfnWebACL.RuleProperty.name := "RateLimitRule";
           wafv2.CfnWebACL.RuleProperty.priority := 1%N;
           wafv2.CfnWebACL.RuleProperty.statement :=
             {| wafv2.CfnWebACL.StatementProperty.managed_rule_group_statement := None;
                wafv2.CfnWebACL.StatementProperty.rate_based_statement :=
                  Some {| wafv2.CfnWebACL.RateBasedStatementProperty.limit := 2000%N;
                          wafv2.CfnWebACL.RateBasedStatementProperty.aggregate_key_type := "IP" |} |};
           wafv2.CfnWebACL.RuleProperty.override_action := None;
           wafv2.CfnWebACL.RuleProperty.action :=
             Some {| wafv2.CfnWebACL.RuleActionProperty.allow := None;
                     wafv2.CfnWebACL.RuleActionProperty.block := None;
                     wafv2.CfnWebACL.RuleActionProperty.captcha := None;
                     wafv2.CfnWebACL.RuleActionProperty.challenge := None;
                     wafv2.CfnWebACL.RuleActionProperty.count := Some tt |};
           wafv2.CfnWebACL.RuleProperty.visibility_config :=
             {| wafv2.CfnWebACL.VisibilityConfigProperty.cloud_watch_metrics_enabled := true;
                wafv2.CfnWebACL.VisibilityConfigProperty.metric_name :=
                  OCSConfig.make_name config (Some "RateLimitMetrics");
                wafv2.CfnWebACL.VisibilityConfigProperty.sampled_requests_enabled := true |} |}
      ] ;;
  (* Associate with the ALB *)
  association <- wafv2.CfnWebACLAssociation_ cdk.self "WAFAssociation"
      (wafv2.CfnWebACL.attr_arn web_acl) load_balancer_arn ;;
  (* Create a CloudWatch Log Group for WAF logs with the required prefix *)
  log_group <- logs.LogGroup_ cdk.self "WAFLogGroup"
      ("aws-waf-logs-" +:+ OCSConfig.make_name config (Some "waf-logs"))
      logs.TWO_YEARS
      cdk.RETAIN ;;
  (* Add a resource policy to allow WAF to write logs *)
  log_group <- logs.LogGroup.add_to_resource_policy log_group
      {| iam.PolicyStatement.effect := iam.ALLOW;
         iam.PolicyStatement.actions := ["logs:CreateLogStream"; "logs:PutLogEvents"];
         iam.PolicyStatement.principals := [iam.ServicePrincipal "wafv2.amazonaws.com"];
         iam.PolicyStatement.resources := [logs.LogGroup.log_group_arn log_group] |} ;;
  (* Add WAF Logging Configuration *)
  logging_config <- wafv2.CfnLoggingConfiguration_ cdk.self "WAFLoggingConfig"
      (wafv2.CfnWebACL.attr_arn web_acl)
      [py.replace ":*" "" (logs.LogGroup.log_group_arn log_group)] ;;
  (* Ensure the log group policy is applied before the logging configuration *)
  _ <- cdk.add_dependency (wafv2.CfnLoggingConfiguration.node logging_config)
                          (logs.LogGroup.node log_group) ;;
  (* Output the Web ACL ARN *)
  _ <- cdk.CfnOutput_ cdk.self (OCSConfig.make_name config (Some "WebACLArn"))
         (wafv2.CfnWebACL.attr_arn web_acl)
         (Some "ARN of the WAF Web ACL") ;;
  (* Output the Log Group ARN *)
  _ <- cdk.CfnOutput_ cdk.self (OCSConfig.make_name config (Some "WAFLogGroupArn"))
         (logs.LogGroup.log_group_arn log_group)
         (Some "ARN of the WAF Log Group") ;;
  cdk.ret (web_acl, association, log_group, logging_config).

Definition __init__ (config : OCSConfig.t) (load_balancer_arn : string)
    : cdk.Error + t :=
  match body config load_balancer_arn cdk.Stack.empty with
  | inl e => inl e
  | inr (web_acl, association, log_group, logging_config, tree) =>
      inr (Build (OCSConfig.stack_name config "waf") (OCSConfig.cdk_env config)
                 config web_acl association log_group logging_config tree)
  end.

End WAFStack.

(** ** A sample configuration *)

Module Sample.

Definition config : OCSConfig.t :=
  {| OCSConfig.ECR_STACK := "ecr";
     OCSConfig.DJANGO_STACK := "django";
     OCSConfig.stack_name := λ s, "ocs-dev-" +:+ s +:+ "-stack";
     OCSConfig.make_name := λ o, match o with
                                 | Some s => "ocs-dev-" +:+ s
                                 | None => "ocs-dev"
                                 end;
     OCSConfig.env := cdk.Environment.Build (Some "111122223333") (Some "us-east-1");
     OCSConfig.cdk_env := cdk.Environment.Build (Some "111122223333") (Some "us-east-1");
     OCSConfig.ecr_repo_name := "ocs-dev-ecr-repo";
     OCSConfig.region := "us-east-1";
     OCSConfig.azure_region := "eastus";
     OCSConfig.rds_db_name := "ocs";
     OCSConfig.s3_private_bucket_name := "ocs-dev-s3-private";
     OCSConfig.s3_public_bucket_name := "ocs-dev-s3-public";
     OCSConfig.s3_whatsapp_audio_bucket := "ocs-dev-s3-whatsapp-audio";
     OCSConfig.privacy_policy_url := "https://example.org/privacy";
     OCSConfig.terms_url := "https://example.org/terms";
     OCSConfig.signup_enabled := "False";
     OCSConfig.slack_bot_name := "ocs-bot";
     OCSConfig.taskbadger_org := "org";
     OCSConfig.taskbadger_project := "project";
     OCSConfig.django_secret_key_secrets_name := "ocs/dev/django-secret-key";
     OCSConfig.get_secrets_list :=
       [ OCSConfig.Secret.Build "ocs/dev/rds-credentials" true;
         OCSConfig.Secret.Build "sentry_dsn" false;
         OCSConfig.Secret.Build "openai_api_key" false ] |}.




Definition vpc : ec2.IVpc := "ocs-dev-vpc".

Definition ecr_repo : ecr.Repository.t :=
  ecr.Repository.Build ["ocs-dev-ECR"] "ocs-dev-ecr-repo" cdk.DESTROY
    [ ecr.LifecycleRule.Build (Some (cdk.Duration_days 7)) None (Some 1%N)
                              (Some ecr.UNTAGGED);
      ecr.LifecycleRule.Build None (Some 4%N) (Some 2%N) (Some ecr.ANY) ].

Definition rds_stack : RdsStack.t :=
  RdsStack.Build
    (RdsStack.DatabaseInstance.Build
       (secretsmanager.Secret ["ocs-dev-Database"; "Secret"] "ocs-dev-rds-secret" None)
       (RdsStack.Endpoint.Build (cdk.Token ["ocs-dev-Database"] "Endpoint.Address"))
       (cdk.Token ["ocs-dev-Database"] "Endpoint.Port")).

Definition redis_stack : RedisStack.t :=
  RedisStack.Build (secretsmanager.Secret ["ocs-dev-RedisUrl"] "ocs-dev-redis-url" None).

Definition domain_stack : DomainStack.t :=
  DomainStack.Build (cdk.Token ["ocs-dev-Certificate"] "Arn").

Definition load_balancer_arn : string :=
  cdk.Token ["ocs-dev-FargateService"; "LB"] "Arn".

End Sample.

(** ** Vocabulary of the statements *)

(** The secrets of the configuration that the loop does not skip. *)
Definition unmanaged_secrets (config : OCSConfig.t) : list OCSConfig.Secret.t :=
  filter (λ s, OCSConfig.Secret.managed s = false)
         (OCSConfig.get_secrets_list config).

(** The key under which the loop stores a secret. *)
Definition secret_key (s : OCSConfig.Secret.t) : string :=
  py.upper (OCSConfig.Secret.name s).

(** The reference that the loop stores: a lookup of the secret by name. *)
Definition secret_by_name (name : string) : ecs.Secret.t :=
  ecs.Secret.from_secrets_manager (secretsmanager.SecretByName [name] name) None.

(** What one iteration that is not skipped does to the dict. *)
Definition add_by_name (secrets : gmap string ecs.Secret.t)
    (s : OCSConfig.Secret.t) : gmap string ecs.Secret.t :=
  <[secret_key s := secret_by_name (OCSConfig.Secret.name s)]> secrets.

Definition builtin_secret_keys : list string :=
  ["DJANGO_DATABASE_USER"; "DJANGO_DATABASE_PASSWORD"; "REDIS_URL"; "SECRET_KEY"].

(** The ARN pattern of the objects of one bucket. *)
Definition s3_objects_arn (bucket : string) : string :=
  "arn:aws:s3:::" +:+ bucket +:+ "/*".

Definition task_definition_of (stack : FargateStack.t)
    : ecs.FargateTaskDefinition.t :=
  ecs_patterns.ApplicationLoadBalancedFargateService.task_definition
    (FargateStack.fargate_service stack).

Definition containers_of (stack : FargateStack.t)
    : list ecs.ContainerDefinition.t :=
  ecs.FargateTaskDefinition.containers (task_definition_of stack).

(** A rule of the web-ACL only counts: its action or its override action is
    [count], and it names no other action. *)
Definition rule_only_counts (r : wafv2.CfnWebACL.RuleProperty.t) : Prop :=
  match wafv2.CfnWebACL.RuleProperty.action r,
        wafv2.CfnWebACL.RuleProperty.override_action r with
  | Some a, None =>
      wafv2.CfnWebACL.RuleActionProperty.count a = Some tt ∧
      wafv2.CfnWebACL.RuleActionProperty.block a = None ∧
      wafv2.CfnWebACL.RuleActionProperty.allow a = None ∧
      wafv2.CfnWebACL.RuleActionProperty.captcha a = None ∧
      wafv2.CfnWebACL.RuleActionProperty.challenge a = None
  | None, Some o =>
      wafv2.CfnWebACL.OverrideActionProperty.count o = Some tt ∧
      wafv2.CfnWebACL.OverrideActionProperty.none o = None
  | _, _ => False
  end.

(** ** Summary of what a method declares

    A method of the stacks creates a fixed list of constructs and returns a
    fixed value; it raises exactly when one of the constructs cannot be
    created.  [declares c ps a ds os] says so for the computation [c]: from
    any tree in which the paths [ps] are new (and distinct), [c] returns
    [a] and leaves the tree extended by [ps], the dependencies [ds] and the
    outputs [os]; from any other tree it raises. *)

Definition fresh_paths (st : cdk.Stack.t) (ps : list cdk.Path) : Prop :=
  NoDup ps ∧ Forall (λ p, p ∉ cdk.Stack.children st) ps.

Definition extend_stack (st : cdk.Stack.t) (ps : list cdk.Path)
    (ds : list (cdk.Path * cdk.Path)) (os : list cdk.CfnOutput.t) : cdk.Stack.t :=
  cdk.Stack.Build (cdk.Stack.children st ++ ps)
                  (cdk.Stack.dependencies st ++ ds)
                  (cdk.Stack.outputs st ++ os).

Definition declares {A} (c : cdk.Synth A) (ps : list cdk.Path) (a : A)
    (ds : list (cdk.Path * cdk.Path)) (os : list cdk.CfnOutput.t) : Prop :=
  ∀ st, (fresh_paths st ps → c st = inr (a, extend_stack st ps ds os)) ∧
        (¬ fresh_paths st ps → ∃ e, c st = inl e).

(** The ids that each stack uses in its own scope, in creation order. *)
Definition EcrStack_ids (config : OCSConfig.t) : list string :=
  [ OCSConfig.make_name config (Some "ECR");
    OCSConfig.make_name config (Some "ECRRepositoryArn");
    OCSConfig.make_name config (Some "ECRRepositoryUri") ].

Definition FargateStack_ids (config : OCSConfig.t) : list string :=
  [ OCSConfig.make_name config (Some "HttpSG");
    OCSConfig.make_name config (Some "HttpsSG");
    OCSConfig.make_name config (Some "DeploymentCluster");
    "ecsTaskRole";
    "ecsTaskExecutionRole";
    OCSConfig.django_secret_key_secrets_name config ]
  ++ (OCSConfig.Secret.name <$> unmanaged_secrets config)
  ++ [ OCSConfig.make_name config (Some "DjangoMigrations");
       OCSConfig.make_name config (Some "FargateService");
       OCSConfig.make_name config (Some "FargateServiceLoadBalancerDNS") ].

(** All constructs of the compute stack: those of its own scope and the two
    containers under the task definition. *)
Definition FargateStack_paths (config : OCSConfig.t) : list cdk.Path :=
  ((λ id, [id]) <$>
     [ OCSConfig.make_name config (Some "HttpSG");
       OCSConfig.make_name config (Some "HttpsSG");
       OCSConfig.make_name config (Some "DeploymentCluster");
       "ecsTaskRole";
       "ecsTaskExecutionRole";
       OCSConfig.django_secret_key_secrets_name config ])
  ++ ((λ id, [id]) <$> (OCSConfig.Secret.name <$> unmanaged_secrets config))
  ++ [ [OCSConfig.make_name config (Some "DjangoMigrations")];
       [OCSConfig.make_name config (Some "DjangoMigrations"); "django_container"];
       [OCSConfig.make_name config (Some "DjangoMigrations"); "web"];
       [OCSConfig.make_name config (Some "FargateService")];
       [OCSConfig.make_name config (Some "FargateServiceLoadBalancerDNS")] ].

Definition WAFStack_ids (config : OCSConfig.t) : list string :=
  [ "DjangoWebACL"; "WAFAssociation"; "WAFLogGroup"; "WAFLoggingConfig";
    OCSConfig.make_name config (Some "WebACLArn");
    OCSConfig.make_name config (Some "WAFLogGroupArn") ].

(** * Properties *)

(** ** The monad *)

Section Synth.

Context {A B : Type}.

Lemma bind_inr (c : cdk.Synth A) (k : A → cdk.Synth B) st b st2 :
  cdk.bind c k st = inr (b, st2) →
  ∃ a st1, c st = inr (a, st1) ∧ k a st1 = inr (b, st2).
Proof.
  unfold cdk.bind. destruct (c st) as [e | [a st1]]; [discriminate |].
  intros H. by exists a, st1.
Qed.

Lemma ret_inr (a a' : A) st st' :
  cdk.ret a st = inr (a', st') → a' = a ∧ st' = st.
Proof. unfold cdk.ret. by intros [= -> ->]. Qed.

End Synth.

Lemma Construct_inr scope id st node st' :
  cdk.Construct scope id st = inr (node, st') →
  node = scope ++ [id] ∧
  (scope ++ [id] ∉ cdk.Stack.children st) ∧
  st' = cdk.Stack.Build (cdk.Stack.children st ++ [scope ++ [id]])
                        (cdk.Stack.dependencies st) (cdk.Stack.outputs st).
Proof.
  unfold cdk.Construct. cbv zeta. case_decide; [discriminate |].
  by intros [= <- <-].
Qed.

Lemma CfnOutput_inr scope id value description st out st' :
  cdk.CfnOutput_ scope id value description st = inr (out, st') →
  out = cdk.CfnOutput.Build (scope ++ [id]) value description ∧
  (scope ++ [id] ∉ cdk.Stack.children st) ∧
  st' = cdk.Stack.Build (cdk.Stack.children st ++ [scope ++ [id]])
                        (cdk.Stack.dependencies st)
                        (cdk.Stack.outputs st ++ [out]).
Proof.
  unfold cdk.CfnOutput_. intros H.
  apply bind_inr in H as (node & st1 & H1 & H).
  apply Construct_inr in H1 as (-> & Hfresh & ->).
  cbv zeta in H. simpl in H. by injection H as <- <-.
Qed.

(** One step of a successful run: split the first bind. *)
Ltac synth_step H :=
  let a := fresh "a" in
  let st := fresh "st" in
  let H1 := fresh H in
  apply bind_inr in H as (a & st & H1 & H).

(** Inversion of a successful run, one construct at a time. *)
Ltac synth_inv :=
  repeat match goal with
  | H : cdk.bind _ _ _ = inr _ |- _ =>
      let a := fresh "a" in
      let st := fresh "st" in
      let H1 := fresh "Hrun" in
      apply bind_inr in H as (a & st & H1 & H)
  | H : cdk.ret _ _ = inr _ |- _ =>
      apply ret_inr in H as [? ?]; subst
  | H : cdk.Construct _ _ _ = inr _ |- _ =>
      apply Construct_inr in H as (? & ? & ?); subst
  | H : cdk.CfnOutput_ _ _ _ _ _ = inr _ |- _ =>
      apply CfnOutput_inr in H as (? & ? & ?); subst
  | H : cdk.add_dependency _ _ _ = inr _ |- _ =>
      unfold cdk.add_dependency in H; injection H as ? ?; subst
  end.

Lemma string_app_assoc (s1 s2 s3 : string) :
  (s1 +:+ s2) +:+ s3 = s1 +:+ s2 +:+ s3.
Proof.
  induction s1 as [| a s1 IH]; [done |].
  change (String a ((s1 +:+ s2) +:+ s3) = String a (s1 +:+ s2 +:+ s3)).
  by rewrite IH.
Qed.

(** ** Registry declaration *)

Section Registry.

Variable config : OCSConfig.t.

Lemma Repository_inr scope id name policy st repo st' :
  ecr.Repository_ scope id name policy st = inr (repo, st') →
  repo = ecr.Repository.Build (scope ++ [id]) name policy [].
Proof.
  unfold ecr.Repository_. intros H. synth_step H.
  apply Construct_inr in H0 as (-> & _ & ->).
  by apply ret_inr in H as [-> _].
Qed.

Lemma setup_ecr_rules st repo st' :
  EcrStack.setup_ecr config st = inr (repo, st') →
  ecr.Repository.lifecycle_rules repo =
    [ ecr.LifecycleRule.Build (Some (cdk.Duration_days 7)) None (Some 1%N)
                              (Some ecr.UNTAGGED);
      ecr.LifecycleRule.Build None (Some 4%N) (Some 2%N) (Some ecr.ANY) ].
Proof.
  unfold EcrStack.setup_ecr. intros H.
  synth_step H. apply Repository_inr in H0 as ->.
  synth_step H. synth_step H.
  by apply ret_inr in H as [-> _].
Qed.

(** C6: the registry of a synthesized registry stack has exactly two
    lifecycle rules: the first expires untagged images older than 7 days,
    the second keeps at most 4 images whatever their tag status. *)
Theorem registry_has_two_retention_rules (stack : EcrStack.t) :
  EcrStack.__init__ config = inr stack →
  ∃ untagged_rule any_rule,
    ecr.Repository.lifecycle_rules (EcrStack.repo stack) = [untagged_rule; any_rule] ∧
    ecr.LifecycleRule.tag_status untagged_rule = Some ecr.UNTAGGED ∧
    ecr.LifecycleRule.max_image_age untagged_rule = Some (cdk.Duration_days 7) ∧
    ecr.LifecycleRule.max_image_count untagged_rule = None ∧
    ecr.LifecycleRule.tag_status any_rule = Some ecr.ANY ∧
    ecr.LifecycleRule.max_image_count any_rule = Some 4%N ∧
    ecr.LifecycleRule.max_image_age any_rule = None.
Proof.
  unfold EcrStack.__init__.
  destruct (EcrStack.setup_ecr config cdk.Stack.empty) as [e | [repo tree]] eqn:E;
    [discriminate |].
  intros [= <-]. simpl.
  rewrite (setup_ecr_rules _ _ _ E).
  eexists _, _. repeat split.
Qed.

End Registry.

Lemma registry_has_two_retention_rules_witness :
  ∃ stack, EcrStack.__init__ Sample.config = inr stack ∧
  ∃ untagged_rule any_rule,
    ecr.Repository.lifecycle_rules (EcrStack.repo stack) = [untagged_rule; any_rule] ∧
    ecr.LifecycleRule.tag_status untagged_rule = Some ecr.UNTAGGED ∧
    ecr.LifecycleRule.max_image_age untagged_rule = Some (cdk.Duration_days 7) ∧
    ecr.LifecycleRule.max_image_count untagged_rule = None ∧
    ecr.LifecycleRule.tag_status any_rule = Some ecr.ANY ∧
    ecr.LifecycleRule.max_image_count any_rule = Some 4%N ∧
    ecr.LifecycleRule.max_image_age any_rule = None.
Proof.
  eexists. split.
  2: apply (registry_has_two_retention_rules Sample.config).
  all: vm_compute; reflexivity.
Defined.

(** ** The loop over the configured secrets *)

Section SecretsLoop.

Implicit Types (l : list OCSConfig.Secret.t) (m : gmap string ecs.Secret.t).

Lemma for_in_add_unmanaged_secret l m st m' st' :
  cdk.for_in l FargateStack.add_unmanaged_secret m st = inr (m', st') →
  m' = foldl add_by_name m
         (filter (λ s, OCSConfig.Secret.managed s = false) l).
Proof.
  revert m st. induction l as [| s l IH]; intros m st H; simpl in H.
  - by apply ret_inr in H as [-> _].
  - synth_step H. unfold FargateStack.add_unmanaged_secret in H0.
    destruct (OCSConfig.Secret.managed s) eqn:Hs.
    + apply ret_inr in H0 as [-> ->].
      rewrite filter_cons_False by (rewrite Hs; discriminate). eauto.
    + rewrite filter_cons_True by done. simpl.
      unfold secretsmanager.from_secret_name_v2 in H0.
      synth_step H0. synth_step H1.
      apply Construct_inr in H2 as (-> & _ & ->).
      apply ret_inr in H1 as [-> ->].
      apply ret_inr in H0 as [-> ->].
      by apply IH in H.
Qed.




End SecretsLoop.



(** ** The secrets dict of the containers *)

Section SecretsDict.

Variables (builtin : gmap string ecs.Secret.t) (l : list OCSConfig.Secret.t).
Hypothesis builtin_keys : dom builtin = list_to_set builtin_secret_keys.






End SecretsDict.

(** ** Compute service declaration *)

Section Compute.

Variables (vpc : ec2.IVpc) (ecr_repo : ecr.Repository.t)
  (rds_stack : RdsStack.t) (redis_stack : RedisStack.t)
  (domain_stack : DomainStack.t) (config : OCSConfig.t).

Lemma get_task_role_inr st task_role st' :
  FargateStack._get_task_role config st = inr (task_role, st') →
  iam.Role.policy_statements task_role =
    [ iam.PolicyStatement.Build iam.ALLOW
        [ "s3:PutObject"; "s3:GetObjectAcl"; "s3:GetObject"; "s3:ListBucket";
          "s3:DeleteObject"; "s3:PutObjectAcl"; "s3:GetBucketAcl" ]
        []
        [ s3_objects_arn (OCSConfig.s3_private_bucket_name config)
          +:+ s3_objects_arn (OCSConfig.s3_public_bucket_name config)
          +:+ s3_objects_arn (OCSConfig.s3_whatsapp_audio_bucket config) ] ].
Proof.
  unfold FargateStack._get_task_role, iam.Role_. intros H. synth_inv.
  simpl. unfold s3_objects_arn. by rewrite !string_app_assoc.
Qed.

Lemma get_task_definition_inr st task st' :
  FargateStack._get_task_definition rds_stack redis_stack ecr_repo config st
    = inr (task, st') →
  ∃ task_role execution_role st1 builtin environment,
    FargateStack._get_task_role config st = inr (task_role, st1) ∧
    dom builtin = list_to_set builtin_secret_keys ∧
    let id := OCSConfig.make_name config (Some "DjangoMigrations") in
    let image := ecs.ContainerImage.from_ecr_repository ecr_repo "latest" in
    let secrets := foldl add_by_name builtin (unmanaged_secrets config) in
    let log_driver := ecs.AwsLogDriver.Build (OCSConfig.make_name config None) in
    task = ecs.FargateTaskDefinition.Build [id] 256 512 execution_role task_role
      [ ecs.ContainerDefinition.Build [id; "django_container"]
          (ecs.ContainerDefinitionOptions.Build
             image (Some "migrate") (Some ["python"; "manage.py"; "migrate"])
             None (Some false) None
             (Some environment) (Some secrets) (Some log_driver))
          [];
        ecs.ContainerDefinition.Build [id; "web"]
          (ecs.ContainerDefinitionOptions.Build
             image (Some "web") None
             None (Some true) (Some [ecs.PortMapping.Build 8000])
             (Some environment) (Some secrets) (Some log_driver))
          [ ecs.ContainerDependency.Build [id; "django_container"]
                                          (Some ecs.SUCCESS) ] ].
Proof.
  unfold FargateStack._get_task_definition. intros H.
  apply bind_inr in H as (task_role & st1 & Hrole & H).
  apply bind_inr in H as (execution_role & st2 & Hexec & H).
  cbv zeta in H.
  unfold secretsmanager.Secret_, ecs.FargateTaskDefinition_,
    ecs.FargateTaskDefinition.add_container in H.
  synth_inv.
  match goal with
  | Hloop : cdk.for_in _ _ ?d _ = inr _ |- _ =>
      apply for_in_add_unmanaged_secret in Hloop as ->;
      exists task_role, execution_role, st1, d
  end.
  eexists. split; [done |]. split.
  { unfold py.dict. simpl. rewrite !dom_insert_L, dom_empty_L.
    unfold builtin_secret_keys. simpl. set_solver. }
  cbv zeta. unfold ecs.FargateTaskDefinition.add_container_dependencies.
  simpl. rewrite decide_False by discriminate. rewrite decide_True by done.
  reflexivity.
Qed.

Lemma FargateStack_init_inr stack :
  FargateStack.__init__ vpc ecr_repo rds_stack redis_stack domain_stack config
    = inr stack →
  ∃ st task st' cluster security_groups,
    FargateStack._get_task_definition rds_stack redis_stack ecr_repo config st
      = inr (task, st') ∧
    FargateStack.fargate_service stack =
      ecs_patterns.ApplicationLoadBalancedFargateService.Build
        [OCSConfig.make_name config (Some "FargateService")]
        cluster security_groups 256 512 1 true
        (OCSConfig.make_name config (Some "LoadBalancer"))
        (OCSConfig.make_name config (Some "Django"))
        (DomainStack.certificate domain_stack)
        true elb.HTTPS task
        (ecs.FargateService.Build
           (OCSConfig.make_name config (Some "Django")) 1 task
           (Some (ecs.ScalableTaskCount.Build 2 (Some 1%N)
                    [ ecs.CpuUtilizationScaling.Build
                        (OCSConfig.make_name config (Some "CpuScaling")) 70
                        (Some (cdk.Duration_seconds 60))
                        (Some (cdk.Duration_seconds 60)) ]))).
Proof.
  unfold FargateStack.__init__.
  destruct (FargateStack.setup_fargate_service _ _ _ _ _ _ _)
    as [e | [service tree]] eqn:H; [discriminate |].
  intros [= <-]. simpl.
  unfold FargateStack.setup_fargate_service in H.
  apply bind_inr in H as (http_sg & ? & _ & H).
  apply bind_inr in H as (https_sg & ? & _ & H).
  apply bind_inr in H as (cluster & st & _ & H).
  apply bind_inr in H as (task & st' & Htask & H).
  unfold ecs_patterns.ApplicationLoadBalancedFargateService_ in H.
  synth_inv.
  eexists _, task, st', _, _. split; [exact Htask |]. reflexivity.
Qed.

(** What every claim about the task definition starts from: the
    synthesized stack holds the task definition described by
    [get_task_definition_inr]. *)
Lemma FargateStack_task_definition stack :
  FargateStack.__init__ vpc ecr_repo rds_stack redis_stack domain_stack config
    = inr stack →
  ∃ st st',
    FargateStack._get_task_definition rds_stack redis_stack ecr_repo config st
      = inr (task_definition_of stack, st').
Proof.
  intros (st & task & st' & cluster & sgs & Htask & Hsvc)%FargateStack_init_inr.
  exists st, st'. unfold task_definition_of. by rewrite Hsvc.
Qed.

(** C1: the task definition of a synthesized compute stack has exactly two
    containers, the non-essential "migrate" and the essential "web", and the
    web container has exactly one dependency: on the migration container,
    with condition SUCCESS. *)
Theorem task_definition_gates_web_on_migration stack :
  FargateStack.__init__ vpc ecr_repo rds_stack redis_stack domain_stack config
    = inr stack →
  ∃ migrate web,
    containers_of stack = [migrate; web] ∧
    ecs.ContainerDefinitionOptions.container_name
      (ecs.ContainerDefinition.props migrate) = Some "migrate" ∧
    ecs.ContainerDefinitionOptions.essential
      (ecs.ContainerDefinition.props migrate) = Some false ∧
    ecs.ContainerDefinitionOptions.container_name
      (ecs.ContainerDefinition.props web) = Some "web" ∧
    ecs.ContainerDefinitionOptions.essential
      (ecs.ContainerDefinition.props web) = Some true ∧
    ecs.ContainerDefinition.node migrate ≠ ecs.ContainerDefinition.node web ∧
    ecs.ContainerDefinition.container_dependencies migrate = [] ∧
    ecs.ContainerDefinition.container_dependencies web =
      [ ecs.ContainerDependency.Build (ecs.ContainerDefinition.node migrate)
                                      (Some ecs.SUCCESS) ].
Proof.
  intros (st & st' & Htask)%FargateStack_task_definition.
  apply get_task_definition_inr in Htask
    as (task_role & execution_role & st1 & builtin & environment & _ & _ & Htask).
  cbv zeta in Htask. unfold containers_of. rewrite Htask. simpl.
  eexists _, _. split; [reflexivity |]. simpl.
  repeat split; discriminate.
Qed.

(** C2: the S3 statement of the task role lists one resource, the three
    bucket ARN patterns joined without a separator, and not the three
    patterns as separate resources. *)
Theorem task_role_resources_are_one_string stack :
  FargateStack.__init__ vpc ecr_repo rds_stack redis_stack domain_stack config
    = inr stack →
  ∃ statement,
    iam.Role.policy_statements
      (ecs.FargateTaskDefinition.task_role (task_definition_of stack))
      = [statement] ∧
    iam.PolicyStatement.resources statement =
      [ s3_objects_arn (OCSConfig.s3_private_bucket_name config)
        +:+ s3_objects_arn (OCSConfig.s3_public_bucket_name config)
        +:+ s3_objects_arn (OCSConfig.s3_whatsapp_audio_bucket config) ] ∧
    length (iam.PolicyStatement.resources statement) = 1 ∧
    iam.PolicyStatement.resources statement ≠
      [ s3_objects_arn (OCSConfig.s3_private_bucket_name config);
        s3_objects_arn (OCSConfig.s3_public_bucket_name config);
        s3_objects_arn (OCSConfig.s3_whatsapp_audio_bucket config) ].
Proof.
  intros (st & st' & Htask)%FargateStack_task_definition.
  apply get_task_definition_inr in Htask
    as (task_role & execution_role & st1 & builtin & environment & Hrole & _ & Htask).
  cbv zeta in Htask. rewrite Htask. simpl.
  apply get_task_role_inr in Hrole. rewrite Hrole.
  eexists. split; [reflexivity |]. simpl. repeat split. discriminate.
Qed.


(** C7: the load-balanced service is declared with 256 CPU units, 512 MiB
    and one desired task; its task count scales between 1 and 2, which
    encloses the desired count, on 70% CPU utilization with 60-second
    cooldowns in both directions. *)
Theorem service_sizing_and_autoscaling stack :
  FargateStack.__init__ vpc ecr_repo rds_stack redis_stack domain_stack config
    = inr stack →
  let service := FargateStack.fargate_service stack in
  ecs_patterns.ApplicationLoadBalancedFargateService.cpu service = 256%N ∧
  ecs_patterns.ApplicationLoadBalancedFargateService.memory_limit_mib service = 512%N ∧
  ecs_patterns.ApplicationLoadBalancedFargateService.desired_count service = 1%N ∧
  ∃ scaling policy,
    ecs.FargateService.scalable_target
      (ecs_patterns.ApplicationLoadBalancedFargateService.service service)
      = Some scaling ∧
    ecs.ScalableTaskCount.min_capacity scaling = Some 1%N ∧
    ecs.ScalableTaskCount.max_capacity scaling = 2%N ∧
    (1 ≤ ecs_patterns.ApplicationLoadBalancedFargateService.desired_count service
       ≤ ecs.ScalableTaskCount.max_capacity scaling)%N ∧
    ecs.ScalableTaskCount.policies scaling = [policy] ∧
    ecs.CpuUtilizationScaling.target_utilization_percent policy = 70%N ∧
    ecs.CpuUtilizationScaling.scale_in_cooldown policy
      = Some (cdk.Duration_seconds 60) ∧
    ecs.CpuUtilizationScaling.scale_out_cooldown policy
      = Some (cdk.Duration_seconds 60).
Proof.
  intros (st & task & st' & cluster & sgs & _ & Hsvc)%FargateStack_init_inr.
  cbv zeta. rewrite Hsvc. simpl.
  repeat split. eexists _, _. split; [reflexivity |]. simpl.
  repeat split; lia.
Qed.


(** C10: the web container is declared with the options of the migration
    container except for the name, the command, the essential flag and the
    port mappings; the image is the registry image at tag "latest". *)
Theorem containers_share_their_configuration stack :
  FargateStack.__init__ vpc ecr_repo rds_stack redis_stack domain_stack config
    = inr stack →
  ∃ migrate web,
    containers_of stack = [migrate; web] ∧
    let m := ecs.ContainerDefinition.props migrate in
    let w := ecs.ContainerDefinition.props web in
    ecs.ContainerDefinitionOptions.image m
      = ecs.ContainerImage.from_ecr_repository ecr_repo "latest" ∧
    ecs.ContainerDefinitionOptions.image w = ecs.ContainerDefinitionOptions.image m ∧
    ecs.ContainerDefinitionOptions.environment w
      = ecs.ContainerDefinitionOptions.environment m ∧
    ecs.ContainerDefinitionOptions.secrets w
      = ecs.ContainerDefinitionOptions.secrets m ∧
    ecs.ContainerDefinitionOptions.logging w
      = ecs.ContainerDefinitionOptions.logging m ∧
    w = ecs.ContainerDefinitionOptions.Build
          (ecs.ContainerDefinitionOptions.image m)
          (ecs.ContainerDefinitionOptions.container_name w)
          (ecs.ContainerDefinitionOptions.command w)
          (ecs.ContainerDefinitionOptions.health_check m)
          (ecs.ContainerDefinitionOptions.essential w)
          (ecs.ContainerDefinitionOptions.port_mappings w)
          (ecs.ContainerDefinitionOptions.environment m)
          (ecs.ContainerDefinitionOptions.secrets m)
          (ecs.ContainerDefinitionOptions.logging m) ∧
    ecs.ContainerDefinitionOptions.container_name w
      ≠ ecs.ContainerDefinitionOptions.container_name m ∧
    ecs.ContainerDefinitionOptions.command w
      ≠ ecs.ContainerDefinitionOptions.command m ∧
    ecs.ContainerDefinitionOptions.essential w
      ≠ ecs.ContainerDefinitionOptions.essential m ∧
    ecs.ContainerDefinitionOptions.port_mappings w
      ≠ ecs.ContainerDefinitionOptions.port_mappings m.
Proof.
  intros (st & st' & Htask)%FargateStack_task_definition.
  apply get_task_definition_inr in Htask
    as (task_role & execution_role & st1 & builtin & environment & _ & _ & Htask).
  cbv zeta in Htask. unfold containers_of. rewrite Htask. simpl.
  eexists _, _. split; [reflexivity |]. simpl.
  repeat split; discriminate.
Qed.

End Compute.

Lemma task_definition_gates_web_on_migration_witness :
  ∃ stack,
    FargateStack.__init__ Sample.vpc Sample.ecr_repo Sample.rds_stack
      Sample.redis_stack Sample.domain_stack Sample.config = inr stack ∧
    (λ c, ecs.ContainerDefinitionOptions.container_name
            (ecs.ContainerDefinition.props c)) <$> containers_of stack
      = [Some "migrate"; Some "web"].
Proof.
  destruct (FargateStack.__init__ Sample.vpc Sample.ecr_repo Sample.rds_stack
              Sample.redis_stack Sample.domain_stack Sample.config)
    as [e | stack] eqn:Hinit; [by vm_compute in Hinit |].
  exists stack. split; [done |].
  destruct (task_definition_gates_web_on_migration _ _ _ _ _ _ stack Hinit)
    as (migrate & web & -> & Hm & _ & Hw & _).
  simpl. by rewrite Hm, Hw.
Defined.

Lemma task_role_resources_are_one_string_witness :
  ∃ stack,
    FargateStack.__init__ Sample.vpc Sample.ecr_repo Sample.rds_stack
      Sample.redis_stack Sample.domain_stack Sample.config = inr stack ∧
    iam.PolicyStatement.resources <$>
      iam.Role.policy_statements
        (ecs.FargateTaskDefinition.task_role (task_definition_of stack))
      = [ [ "arn:aws:s3:::ocs-dev-s3-private/*arn:aws:s3:::ocs-dev-s3-public/*arn:aws:s3:::ocs-dev-s3-whatsapp-audio/*" ] ].
Proof.
  destruct (FargateStack.__init__ Sample.vpc Sample.ecr_repo Sample.rds_stack
              Sample.redis_stack Sample.domain_stack Sample.config)
    as [e | stack] eqn:Hinit; [by vm_compute in Hinit |].
  exists stack. split; [done |].
  destruct (task_role_resources_are_one_string _ _ _ _ _ _ stack Hinit)
    as (statement & -> & Hres & _).
  simpl. by rewrite Hres.
Defined.


Lemma service_sizing_and_autoscaling_witness :
  ∃ stack,
    FargateStack.__init__ Sample.vpc Sample.ecr_repo Sample.rds_stack
      Sample.redis_stack Sample.domain_stack Sample.config = inr stack ∧
    ecs_patterns.ApplicationLoadBalancedFargateService.desired_count
      (FargateStack.fargate_service stack) = 1%N.
Proof.
  destruct (FargateStack.__init__ Sample.vpc Sample.ecr_repo Sample.rds_stack
              Sample.redis_stack Sample.domain_stack Sample.config)
    as [e | stack] eqn:Hinit; [by vm_compute in Hinit |].
  exists stack. split; [done |].
  by destruct (service_sizing_and_autoscaling _ _ _ _ _ _ stack Hinit)
    as (_ & _ & Hcount & _).
Defined.



Lemma containers_share_their_configuration_witness :
  ∃ stack,
    FargateStack.__init__ Sample.vpc Sample.ecr_repo Sample.rds_stack
      Sample.redis_stack Sample.domain_stack Sample.config = inr stack ∧
    (λ c, ecs.ContainerImage.tag
            (ecs.ContainerDefinitionOptions.image (ecs.ContainerDefinition.props c)))
      <$> containers_of stack = ["latest"; "latest"].
Proof.
  destruct (FargateStack.__init__ Sample.vpc Sample.ecr_repo Sample.rds_stack
              Sample.redis_stack Sample.domain_stack Sample.config)
    as [e | stack] eqn:Hinit; [by vm_compute in Hinit |].
  exists stack. split; [done |].
  destruct (containers_share_their_configuration _ _ _ _ _ _ stack Hinit)
    as (migrate & web & -> & Hm & Hw & _).
  simpl in *. by rewrite Hw, Hm.
Defined.

(** ** Firewall declaration *)

(** A dependency on a construct reaches everything below it in the tree,
    in whatever order the two were declared. *)
Lemma depends_on_covers_subtree (st : cdk.Stack.t) (a b q : cdk.Path) :
  (a, b) ∈ cdk.Stack.dependencies st →
  b `prefix_of` q →
  q ∈ cdk.Stack.children st →
  q ∈ cdk.depends_on st a.
Proof.
  intros Hdep Hprefix Hq. unfold cdk.depends_on.
  apply list_elem_of_filter. split; [| done].
  apply Exists_exists. exists (a, b). by repeat split.
Qed.

Section Firewall.

Variables (config : OCSConfig.t) (load_balancer_arn : string).

Lemma WAFStack_body_inr st web_acl association log_group logging_config st' :
  WAFStack.body config load_balancer_arn st
    = inr (web_acl, association, log_group, logging_config, st') →
  wafv2.CfnWebACL.default_action web_acl
    = wafv2.CfnWebACL.DefaultActionProperty.Build (Some tt) None ∧
  (∃ common_visibility rate_visibility,
     wafv2.CfnWebACL.rules web_acl =
       [ wafv2.CfnWebACL.RuleProperty.Build "AWSManagedCommonRuleSet" 0
           (wafv2.CfnWebACL.StatementProperty.Build
              (Some (wafv2.CfnWebACL.ManagedRuleGroupStatementProperty.Build
                       "AWS" "AWSManagedRulesCommonRuleSet"))
              None)
           (Some (wafv2.CfnWebACL.OverrideActionProperty.Build (Some tt) None))
           None
           common_visibility;
         wafv2.CfnWebACL.RuleProperty.Build "RateLimitRule" 1
           (wafv2.CfnWebACL.StatementProperty.Build
              None
              (Some (wafv2.CfnWebACL.RateBasedStatementProperty.Build 2000 "IP")))
           None
           (Some (wafv2.CfnWebACL.RuleActionProperty.Build
                    None None None None (Some tt)))
           rate_visibility ]) ∧
  log_group =
    logs.LogGroup.Build ["WAFLogGroup"]
      ("aws-waf-logs-" +:+ OCSConfig.make_name config (Some "waf-logs"))
      logs.TWO_YEARS cdk.RETAIN
      (Some (logs.ResourcePolicy.Build ["WAFLogGroup"; "Policy"]
               [ iam.PolicyStatement.Build iam.ALLOW
                   ["logs:CreateLogStream"; "logs:PutLogEvents"]
                   [iam.ServicePrincipal "wafv2.amazonaws.com"]
                   [cdk.Token ["WAFLogGroup"] "Arn"] ])) ∧
  wafv2.CfnLoggingConfiguration.node logging_config = ["WAFLoggingConfig"] ∧
  (["WAFLoggingConfig"], ["WAFLogGroup"]) ∈ cdk.Stack.dependencies st' ∧
  ["WAFLogGroup"] ∈ cdk.Stack.children st' ∧
  ["WAFLogGroup"; "Policy"] ∈ cdk.Stack.children st'.
Proof.
  unfold WAFStack.body. intros H.
  unfold wafv2.CfnWebACL_, wafv2.CfnWebACLAssociation_, logs.LogGroup_,
    wafv2.CfnLoggingConfiguration_ in H.
  apply bind_inr in H as (acl & st1 & Hacl & H).
  apply bind_inr in H as (assoc & st2 & Hassoc & H).
  apply bind_inr in H as (group & st3 & Hgroup & H).
  apply bind_inr in H as (group' & st4 & Hpolicy & H).
  apply bind_inr in H as (logging & st5 & Hlogging & H).
  apply bind_inr in H as (u & st6 & Hdep & H).
  apply bind_inr in H as (out1 & st7 & Hout1 & H).
  apply bind_inr in H as (out2 & st8 & Hout2 & H).
  apply ret_inr in H as [[= <- <- <- <-] ->].
  synth_inv. unfold logs.LogGroup.add_to_resource_policy in Hpolicy.
  simpl in Hpolicy. synth_inv. simpl.
  split; [done |]. split; [by eexists _, _ |]. split; [done |].
  split; [done |]. split; [set_solver |]. split; set_solver.
Qed.

Lemma WAFStack_init_inr stack :
  WAFStack.__init__ config load_balancer_arn = inr stack →
  WAFStack.body config load_balancer_arn cdk.Stack.empty
    = inr (WAFStack.web_acl stack, WAFStack.association stack,
           WAFStack.log_group stack, WAFStack.logging_config stack,
           WAFStack.tree stack).
Proof.
  unfold WAFStack.__init__.
  destruct (WAFStack.body config load_balancer_arn cdk.Stack.empty)
    as [e | [[[[acl assoc] group] logging] tree]]; [discriminate |].
  by intros [= <-].
Qed.

(** C3: the firewall stack creates a log group with two-year retention and,
    under it, a resource policy that lets the principal wafv2.amazonaws.com
    create log streams and put log events on that log group; the logging
    configuration depends on the log group construct, and in the template
    this dependency reaches the policy. *)
Theorem firewall_logging_waits_for_log_policy stack :
  WAFStack.__init__ config load_balancer_arn = inr stack →
  let log_group := WAFStack.log_group stack in
  let logging_config := wafv2.CfnLoggingConfiguration.node (WAFStack.logging_config stack) in
  logs.LogGroup.retention log_group = logs.TWO_YEARS ∧
  logs.retention_in_days (logs.LogGroup.retention log_group) = Some 731%N ∧
  ∃ policy statement,
    logs.LogGroup.policy log_group = Some policy ∧
    logs.ResourcePolicy.statements policy = [statement] ∧
    iam.PolicyStatement.effect statement = iam.ALLOW ∧
    iam.PolicyStatement.principals statement
      = [iam.ServicePrincipal "wafv2.amazonaws.com"] ∧
    iam.PolicyStatement.actions statement
      = ["logs:CreateLogStream"; "logs:PutLogEvents"] ∧
    iam.PolicyStatement.resources statement
      = [logs.LogGroup.log_group_arn log_group] ∧
    (logging_config, logs.LogGroup.node log_group)
      ∈ cdk.Stack.dependencies (WAFStack.tree stack) ∧
    logs.LogGroup.node log_group `prefix_of` logs.ResourcePolicy.node policy ∧
    logs.ResourcePolicy.node policy
      ∈ cdk.depends_on (WAFStack.tree stack) logging_config.
Proof.
  intros Hbody%WAFStack_init_inr.
  apply WAFStack_body_inr in Hbody
    as (_ & _ & Hgroup & Hlogging & Hdep & Hgroup_node & Hpolicy_node).
  cbv zeta. rewrite Hgroup, Hlogging. simpl.
  split; [done |]. split; [done |].
  eexists _, _. split; [reflexivity |]. simpl.
  repeat split; try done.
  - by exists ["Policy"].
  - eapply depends_on_covers_subtree; [exact Hdep | by exists ["Policy"] | done].
Qed.

(** C5: the web-ACL has exactly two rules: at priority 0 the managed rule
    group AWSManagedRulesCommonRuleSet of vendor AWS with override action
    count, at priority 1 a rate-based rule aggregated by IP with limit 2000
    and action count; neither rule names a block action. *)
Theorem web_acl_has_two_counting_rules stack :
  WAFStack.__init__ config load_balancer_arn = inr stack →
  ∃ common rate,
    wafv2.CfnWebACL.rules (WAFStack.web_acl stack) = [common; rate] ∧
    wafv2.CfnWebACL.RuleProperty.priority common = 0%N ∧
    wafv2.CfnWebACL.RuleProperty.statement common =
      wafv2.CfnWebACL.StatementProperty.Build
        (Some (wafv2.CfnWebACL.ManagedRuleGroupStatementProperty.Build
                 "AWS" "AWSManagedRulesCommonRuleSet"))
        None ∧
    wafv2.CfnWebACL.RuleProperty.override_action common
      = Some (wafv2.CfnWebACL.OverrideActionProperty.Build (Some tt) None) ∧
    wafv2.CfnWebACL.RuleProperty.action common = None ∧
    wafv2.CfnWebACL.RuleProperty.priority rate = 1%N ∧
    wafv2.CfnWebACL.RuleProperty.statement rate =
      wafv2.CfnWebACL.StatementProperty.Build
        None
        (Some (wafv2.CfnWebACL.RateBasedStatementProperty.Build 2000 "IP")) ∧
    wafv2.CfnWebACL.RuleProperty.override_action rate = None ∧
    ∃ rate_action,
      wafv2.CfnWebACL.RuleProperty.action rate = Some rate_action ∧
      wafv2.CfnWebACL.RuleActionProperty.count rate_action = Some tt ∧
      wafv2.CfnWebACL.RuleActionProperty.block rate_action = None.
Proof.
  intros Hbody%WAFStack_init_inr.
  apply WAFStack_body_inr in Hbody as (_ & (v1 & v2 & Hrules) & _).
  rewrite Hrules. eexists _, _. split; [reflexivity |]. simpl.
  repeat split. eexists. by repeat split.
Qed.

(** C9: the default action of the web-ACL is allow, and every rule of the
    web-ACL only counts: nothing in the ACL blocks. *)
Theorem web_acl_never_blocks stack :
  WAFStack.__init__ config load_balancer_arn = inr stack →
  let acl := WAFStack.web_acl stack in
  wafv2.CfnWebACL.DefaultActionProperty.allow
    (wafv2.CfnWebACL.default_action acl) = Some tt ∧
  wafv2.CfnWebACL.DefaultActionProperty.block
    (wafv2.CfnWebACL.default_action acl) = None ∧
  ∀ r, r ∈ wafv2.CfnWebACL.rules acl → rule_only_counts r.
Proof.
  intros Hbody%WAFStack_init_inr.
  apply WAFStack_body_inr in Hbody as (Hdefault & (v1 & v2 & Hrules) & _).
  cbv zeta. rewrite Hdefault, Hrules. simpl.
  split; [done |]. split; [done |].
  intros r Hr.
  apply elem_of_cons in Hr as [-> | Hr]; [by repeat split |].
  apply elem_of_cons in Hr as [-> | Hr]; [by repeat split |].
  by apply elem_of_nil in Hr.
Qed.

End Firewall.

Lemma firewall_logging_waits_for_log_policy_witness :
  ∃ stack,
    WAFStack.__init__ Sample.config Sample.load_balancer_arn = inr stack ∧
    cdk.depends_on (WAFStack.tree stack) ["WAFLoggingConfig"]
      = [["WAFLogGroup"]; ["WAFLogGroup"; "Policy"]] ∧
    ∃ policy,
      logs.LogGroup.policy (WAFStack.log_group stack) = Some policy ∧
      logs.ResourcePolicy.node policy
        ∈ cdk.depends_on (WAFStack.tree stack) ["WAFLoggingConfig"].
Proof.
  destruct (WAFStack.__init__ Sample.config Sample.load_balancer_arn)
    as [e | stack] eqn:Hinit; [by vm_compute in Hinit |].
  exists stack.
  destruct (firewall_logging_waits_for_log_policy _ _ stack Hinit)
    as (_ & _ & policy & statement & Hpolicy & _ & _ & _ & _ & _ & _ & _ & Hin).
  vm_compute in Hinit. injection Hinit as <-.
  split; [done |]. split; [by vm_compute |].
  exists policy. split; [done |]. exact Hin.
Defined.

Lemma web_acl_has_two_counting_rules_witness :
  ∃ stack,
    WAFStack.__init__ Sample.config Sample.load_balancer_arn = inr stack ∧
    wafv2.CfnWebACL.RuleProperty.priority
      <$> wafv2.CfnWebACL.rules (WAFStack.web_acl stack) = [0%N; 1%N].
Proof.
  destruct (WAFStack.__init__ Sample.config Sample.load_balancer_arn)
    as [e | stack] eqn:Hinit; [by vm_compute in Hinit |].
  exists stack. split; [done |].
  destruct (web_acl_has_two_counting_rules _ _ stack Hinit)
    as (common & rate & -> & Hp0 & _ & _ & _ & Hp1 & _).
  simpl. by rewrite Hp0, Hp1.
Defined.

Lemma web_acl_never_blocks_witness :
  ∃ stack,
    WAFStack.__init__ Sample.config Sample.load_balancer_arn = inr stack ∧
    Forall rule_only_counts (wafv2.CfnWebACL.rules (WAFStack.web_acl stack)).
Proof.
  destruct (WAFStack.__init__ Sample.config Sample.load_balancer_arn)
    as [e | stack] eqn:Hinit; [by vm_compute in Hinit |].
  exists stack. split; [done |].
  apply Forall_forall.
  by destruct (web_acl_never_blocks _ _ stack Hinit) as (_ & _ & Hrules).
Defined.
